(** * js-calcs: US Standard Atmosphere 1976 and WGS84 transforms

    A shallow embedding of the two calculators of the repository:

    - [Atmosphere] : class [Atmosphere] (constructor and [update]),
                     with [k2c], [k2f], [k2r] and the numeric part of
                     [calcAtmos];
    - [WGS84]      : class [WGS84] ([geo2wgs] and [wgs2geo]) of
                     [js/calc_wgs84.js], with [deg2rad], [rad2deg],
                     [calcGeo2XYZ] and [calcXYZ2Geo].

    Numbers.  A JavaScript number is modelled as a real number of the
    Standard Library: decimal literals denote their exact decimal value
    and [+], [-], [*], [/] are the exact operations.  [Math.abs] is
    [Rabs], [Math.sqrt] is [sqrt], [Math.exp] is [exp], [Math.sin],
    [Math.cos] and [Math.atan] are [sin], [cos] and [atan], [Math.pow]
    is [Rpower] (which agrees with the real power for a positive base,
    the only case the statements below reach) and [Math.atan2] is
    [atan2] below and [Math.PI] is [PI].  Rounding, infinities and NaN
    are outside the model.
    Every comparison of the source is against a constant that is an
    integer or a short decimal, so the control flow of the model is the
    control flow of the program on every finite input.

    Objects.  An instance is a record of its fields; a method that
    assigns to fields of [this] takes the record and returns the
    updated one.  Arrays are lists read by index.

    Rounding.  Where a statement depends on the rounding of the
    program's numbers, module [Binary64] repeats the constructor and
    [update] on IEEE 754 binary64 values. *)

From Stdlib Require Import Floats.
From Stdlib Require Import Reals Lra Lia List Bool String.
Import ListNotations.

Set Warnings "-inexact-float".

Open Scope R_scope.

(** [arr[i]] for an array of numbers.  Every index in the source is a
    literal or the loop counter [1..6], always inside the seven (or ten)
    elements, so the default value is never read. *)
Definition get (arr : list R) (i : nat) : R := nth i arr 0.

Notation "arr .[ i ]" := (get arr i) (at level 1, format "arr .[ i ]").

(* ================================================================== *)
(** * Class Atmosphere *)
(* ================================================================== *)

Module Atmosphere.

(** The fields assigned in the constructor, in the same order. *)
Record t : Type := mk {
  m_i : list R;
  f_i : list R;
  m : R;
  r : R;
  s : R;
  beta : R;
  gamma : R;
  wgs_g : R;
  t_0 : R;
  p_0 : R;
  rho_0 : R;
  temp : R;
  press : R;
  dens : R;
  sound : R;
  visc : R;
  kinViscosity : R;
  valid : bool;
  h_b : list R;
  p_b : list R;
  t_b : list R;
  l_b : list R
}.

(** Assignment to the seven fields that [update] writes; the others are
    copied. *)
Definition set_outputs (this : t)
    (temp' press' dens' sound' visc' kin' : R) (valid' : bool) : t :=
  {| m_i := m_i this; f_i := f_i this; m := m this; r := r this;
     s := s this; beta := beta this; gamma := gamma this;
     wgs_g := wgs_g this; t_0 := t_0 this; p_0 := p_0 this;
     rho_0 := rho_0 this;
     temp := temp'; press := press'; dens := dens'; sound := sound';
     visc := visc'; kinViscosity := kin'; valid := valid';
     h_b := h_b this; p_b := p_b this; t_b := t_b this; l_b := l_b this |}.

Definition set_temp (this : t) (v : R) : t :=
  set_outputs this v (press this) (dens this) (sound this) (visc this)
    (kinViscosity this) (valid this).
Definition set_press (this : t) (v : R) : t :=
  set_outputs this (temp this) v (dens this) (sound this) (visc this)
    (kinViscosity this) (valid this).
Definition set_dens (this : t) (v : R) : t :=
  set_outputs this (temp this) (press this) v (sound this) (visc this)
    (kinViscosity this) (valid this).
Definition set_sound (this : t) (v : R) : t :=
  set_outputs this (temp this) (press this) (dens this) v (visc this)
    (kinViscosity this) (valid this).
Definition set_visc (this : t) (v : R) : t :=
  set_outputs this (temp this) (press this) (dens this) (sound this) v
    (kinViscosity this) (valid this).
Definition set_kinViscosity (this : t) (v : R) : t :=
  set_outputs this (temp this) (press this) (dens this) (sound this)
    (visc this) v (valid this).
Definition set_valid (this : t) (v : bool) : t :=
  set_outputs this (temp this) (press this) (dens this) (sound this)
    (visc this) (kinViscosity this) v.

(** [this.m_i] : molecular weights, [kg/kmol]. *)
Definition m_i0 : list R :=
  [ 28.0134; 31.9988; 39.948; 44.00995; 20.183;
    4.0026; 83.8; 131.3; 16.04303; 2.01594 ].

(** [this.f_i] : fractional volumes. *)
Definition f_i0 : list R :=
  [ 0.78084; 0.209476; 0.00934; 0.000314; 0.00001818;
    0.00000524; 0.00000114; 0.000000087; 0.000002; 0.0000005 ].

(** The expression assigned to [this.m], term by term as written. *)
Definition mean_molecular_weight (mi fi : list R) : R :=
  ( mi.[0] * fi.[0]
  + mi.[1] * fi.[1]
  + mi.[2] * fi.[2]
  + mi.[3] * fi.[3]
  + mi.[4] * fi.[4]
  + mi.[5] * fi.[5]
  + mi.[6] * fi.[6]
  + mi.[7] * fi.[7]
  + mi.[8] * fi.[8]
  + mi.[9] * fi.[9] )
  /
  ( fi.[0]
  + fi.[1]
  + fi.[2]
  + fi.[3]
  + fi.[4]
  + fi.[5]
  + fi.[6]
  + fi.[7]
  + fi.[8]
  + fi.[9] ).

(** [new Atmosphere()]. *)
Definition constructor : t :=
  {| m_i := m_i0;
     f_i := f_i0;
     m := mean_molecular_weight m_i0 f_i0;
     r := 8.31432e3;
     s := 110.0;
     beta := 1.458e-6;
     gamma := 1.4;
     wgs_g := 9.80665;
     t_0 := 288.15;
     p_0 := 101325.0;
     rho_0 := 1.225;
     temp := 0.0;
     press := 0.0;
     dens := 0.0;
     sound := 0.0;
     visc := 0.0;
     kinViscosity := 0.0;
     valid := false;
     h_b := [ 11000.0; 20000.0; 32000.0; 47000.0; 51000.0; 71000.0; 84852.0 ];
     p_b := [ 101325.0; 22632.0; 5474.8; 868.01; 110.9; 66.938; 3.9564 ];
     t_b := [ 288.15; 216.65; 216.65; 228.65; 270.65; 270.65; 214.65 ];
     l_b := [ -6.5e-3; 0.0; 1.0e-3; 2.8e-3; 0.0; -2.8e-3; -2.0e-3 ] |}.

(** The local variables [hb], [pb], [tb], [lb] of [update]. *)
Record locals : Type := mkLocals { hb : R; pb : R; tb : R; lb : R }.

(** The first seven assignments of [update]. *)
Definition reset (this : t) : t :=
  let this := set_temp this 0.0 in
  let this := set_press this 0.0 in
  let this := set_dens this 0.0 in
  let this := set_sound this 0.0 in
  let this := set_visc this 0.0 in
  let this := set_kinViscosity this 0.0 in
  set_valid this false.

(** The values the four locals are declared with. *)
Definition preseed (this : t) : locals :=
  {| hb := (h_b this).[5];
     pb := (p_b this).[6];
     tb := (t_b this).[6];
     lb := 0.0 |}.

(** [for ( var i = ...; i < 7; i++ ) { if ( alt < this.h_b[ i ] ) { ...;
    break; } }] started at counter [i] with [n = 7 - i] iterations left.
    Falling out of the loop leaves the object and the locals as they
    were. *)
Fixpoint scan (this : t) (alt : R) (loc : locals) (i n : nat) : t * locals :=
  match n with
  | O => (this, loc)
  | S n' =>
      if Rlt_dec alt (h_b this).[i]
      then (set_valid this true,
            {| hb := (h_b this).[i - 1];
               pb := (p_b this).[i];
               tb := (t_b this).[i];
               lb := (l_b this).[i] |})
      else scan this alt loc (S i) n'
  end.

(** The layer resolution of [update]: the [if]/[else] that follows the
    declaration of the locals. *)
Definition resolve (this : t) (alt : R) : t * locals :=
  let loc := preseed this in
  if Rlt_dec alt (h_b this).[0]
  then (set_valid this true,
        {| hb := 0.0;
           pb := (p_b this).[0];
           tb := t_0 this;
           lb := - (t_0 this - (t_b this).[1]) / (h_b this).[0] |})
  else scan this alt loc 1 6.

(** The right-hand side assigned to [this.press]. *)
Definition pressure (this : t) (loc : locals) (delta_h : R) : R :=
  if Rlt_dec (Rabs (lb loc)) 1.0e-6
  then pb loc * exp (- (wgs_g this * m this * delta_h) / (r this * tb loc))
  else pb loc * Rpower (tb loc / temp this)
                       ((wgs_g this * m this) / (r this * lb loc)).

(** The body of [if ( this.valid ) { ... }]. *)
Definition compute (this : t) (loc : locals) (alt : R) : t :=
  let delta_h := alt - hb loc in
  let this := set_temp this (tb loc + lb loc * delta_h) in
  let this := set_press this (pressure this loc delta_h) in
  let this := set_dens this ((press this * m this) / (r this * temp this)) in
  let this := set_sound this (sqrt ((gamma this * r this * temp this) / m this)) in
  let this := set_visc this
    (beta this * Rpower (temp this) (3.0 / 2.0) / (temp this + s this)) in
  set_kinViscosity this (visc this / dens this).

(** [update( alt )]. *)
Definition update (this : t) (alt : R) : t :=
  let this := reset this in
  if Rgt_dec alt (h_b this).[6]
  then this
  else
    let '(this, loc) := resolve this alt in
    if valid this then compute this loc alt else this.

End Atmosphere.

(** ** Temperature conversions and [calcAtmos] *)

Definition k2c (temp : R) : R := temp - 273.15.

Definition k2f (temp : R) : R := (9.0 * (temp - 273.15) / 5.0) + 32.0.

Definition k2r (temp : R) : R :=
  (9.0 * (temp - 273.15) / 5.0) + 32.0 + 459.67.

(** The local [temp] of [calcAtmos] starts as [1.0 / 0.0]; it is the
    only place where the program holds an infinity on purpose. *)
Inductive number : Type :=
  | Finite (x : R)
  | Infinity.

(** What [calcAtmos] reads from the page: the altitude field after
    [parseFloat], and the [value] strings of the six unit selectors. *)
Record atmos_form : Type := mkForm {
  inp_alt : R;
  unit_alt : string;
  unit_temp : string;
  unit_press : string;
  unit_dens : string;
  unit_sound : string;
  unit_visc : string
}.

(** What [calcAtmos] writes to the page.  [calc_error] is the branch
    that shows the error block and empties the five outputs.  In
    [outputs] each pair is a number and the digit count it is formatted
    with ([toFixed], and [toExponential] for the viscosity); the
    formatting itself is not modelled. *)
Inductive atmos_page : Type :=
  | calc_error
  | outputs (out_temp : number * nat)
            (out_press out_dens out_sound out_visc : R * nat).

(** [calcAtmos()], from the form to the page.  A [switch] without a
    matching [case] leaves its variables as initialised. *)
Definition calcAtmos (form : atmos_form) : atmos_page :=
  let alt_raw := inp_alt form in
  let coef_alt :=
    match unit_alt form with
    | "1"%string => 1.0
    | "2"%string => 0.3048
    | _ => 1.0
    end in
  let alt_m := coef_alt * alt_raw in
  let atmos := Atmosphere.update Atmosphere.constructor alt_m in
  let temp :=
    match unit_temp form with
    | "1"%string => Finite (Atmosphere.temp atmos)
    | "2"%string => Finite (k2c (Atmosphere.temp atmos))
    | "3"%string => Finite (k2r (Atmosphere.temp atmos))
    | "4"%string => Finite (k2f (Atmosphere.temp atmos))
    | _ => Infinity
    end in
  let '(coef_press, prec_press) :=
    match unit_press form with
    | "1"%string => (1.0, 1%nat)
    | "2"%string => (0.01, 3%nat)
    | "3"%string => (0.000295333727, 5%nat)
    | "4"%string => (0.000145037738, 5%nat)
    | _ => (1.0, 1%nat)
    end in
  let coef_dens :=
    match unit_dens form with
    | "1"%string => 1.0
    | _ => 1.0
    end in
  let '(coef_sound, prec_sound) :=
    match unit_sound form with
    | "1"%string => (1.0, 2%nat)
    | "2"%string => (3.2808399, 1%nat)
    | "3"%string => (3.6, 1%nat)
    | "4"%string => (1.943844491, 2%nat)
    | _ => (1.0, 2%nat)
    end in
  let coef_visc :=
    match unit_visc form with
    | "1"%string => 1.0
    | _ => 1.0
    end in
  if Atmosphere.valid atmos
  then
    let press := coef_press * Atmosphere.press atmos in
    let dens := coef_dens * Atmosphere.dens atmos in
    let sound := coef_sound * Atmosphere.sound atmos in
    let visc := coef_visc * Atmosphere.visc atmos in
    outputs (temp, 2%nat) (press, prec_press) (dens, 4%nat)
            (sound, prec_sound) (visc, 6%nat)
  else calc_error.


(* ================================================================== *)
(** * Class Atmosphere on binary64 numbers *)
(* ================================================================== *)

(** The constructor and [update] once more, definition by definition as
    in [Atmosphere], on the numbers of the program: IEEE 754 binary64
    values with their correctly rounded [+], [-], [*], [/] and
    [Math.sqrt].  [Math.exp] and [Math.pow], whose results the language
    leaves to the implementation, are parameters.  This model is used
    where a statement depends on rounding. *)
Module Binary64.

Local Open Scope float_scope.

(** [arr[i]]; the default value is never read. *)
Definition getf (arr : list float) (i : nat) : float := nth i arr nan.


(** The fields assigned in the constructor, in the same order. *)
Record t : Type := mk {
  m_i : list float;
  f_i : list float;
  m : float;
  r : float;
  s : float;
  beta : float;
  gamma : float;
  wgs_g : float;
  t_0 : float;
  p_0 : float;
  rho_0 : float;
  temp : float;
  press : float;
  dens : float;
  sound : float;
  visc : float;
  kinViscosity : float;
  valid : bool;
  h_b : list float;
  p_b : list float;
  t_b : list float;
  l_b : list float
}.

(** Assignment to the seven fields that [update] writes; the others are
    copied. *)
Definition set_outputs (this : t)
    (temp' press' dens' sound' visc' kin' : float) (valid' : bool) : t :=
  {| m_i := m_i this; f_i := f_i this; m := m this; r := r this;
     s := s this; beta := beta this; gamma := gamma this;
     wgs_g := wgs_g this; t_0 := t_0 this; p_0 := p_0 this;
     rho_0 := rho_0 this;
     temp := temp'; press := press'; dens := dens'; sound := sound';
     visc := visc'; kinViscosity := kin'; valid := valid';
     h_b := h_b this; p_b := p_b this; t_b := t_b this; l_b := l_b this |}.

Definition set_temp (this : t) (v : float) : t :=
  set_outputs this v (press this) (dens this) (sound this) (visc this)
    (kinViscosity this) (valid this).
Definition set_press (this : t) (v : float) : t :=
  set_outputs this (temp this) v (dens this) (sound this) (visc this)
    (kinViscosity this) (valid this).
Definition set_dens (this : t) (v : float) : t :=
  set_outputs this (temp this) (press this) v (sound this) (visc this)
    (kinViscosity this) (valid this).
Definition set_sound (this : t) (v : float) : t :=
  set_outputs this (temp this) (press this) (dens this) v (visc this)
    (kinViscosity this) (valid this).
Definition set_visc (this : t) (v : float) : t :=
  set_outputs this (temp this) (press this) (dens this) (sound this) v
    (kinViscosity this) (valid this).
Definition set_kinViscosity (this : t) (v : float) : t :=
  set_outputs this (temp this) (press this) (dens this) (sound this)
    (visc this) v (valid this).
Definition set_valid (this : t) (v : bool) : t :=
  set_outputs this (temp this) (press this) (dens this) (sound this)
    (visc this) (kinViscosity this) v.

(** [this.m_i] : molecular weights, [kg/kmol]. *)
Definition m_i0 : list float :=
  [ 28.0134; 31.9988; 39.948; 44.00995; 20.183;
    4.0026; 83.8; 131.3; 16.04303; 2.01594 ].

(** [this.f_i] : fractional volumes. *)
Definition f_i0 : list float :=
  [ 0.78084; 0.209476; 0.00934; 0.000314; 0.00001818;
    0.00000524; 0.00000114; 0.000000087; 0.000002; 0.0000005 ].

(** The expression assigned to [this.m], term by term as written. *)
Definition mean_molecular_weight (mi fi : list float) : float :=
  ( getf mi 0 * getf fi 0
  + getf mi 1 * getf fi 1
  + getf mi 2 * getf fi 2
  + getf mi 3 * getf fi 3
  + getf mi 4 * getf fi 4
  + getf mi 5 * getf fi 5
  + getf mi 6 * getf fi 6
  + getf mi 7 * getf fi 7
  + getf mi 8 * getf fi 8
  + getf mi 9 * getf fi 9 )
  /
  ( getf fi 0
  + getf fi 1
  + getf fi 2
  + getf fi 3
  + getf fi 4
  + getf fi 5
  + getf fi 6
  + getf fi 7
  + getf fi 8
  + getf fi 9 ).

(** [new Atmosphere()]. *)
Definition constructor : t :=
  {| m_i := m_i0;
     f_i := f_i0;
     m := mean_molecular_weight m_i0 f_i0;
     r := 8.31432e3;
     s := 110.0;
     beta := 1.458e-6;
     gamma := 1.4;
     wgs_g := 9.80665;
     t_0 := 288.15;
     p_0 := 101325.0;
     rho_0 := 1.225;
     temp := 0.0;
     press := 0.0;
     dens := 0.0;
     sound := 0.0;
     visc := 0.0;
     kinViscosity := 0.0;
     valid := false;
     h_b := [ 11000.0; 20000.0; 32000.0; 47000.0; 51000.0; 71000.0; 84852.0 ];
     p_b := [ 101325.0; 22632.0; 5474.8; 868.01; 110.9; 66.938; 3.9564 ];
     t_b := [ 288.15; 216.65; 216.65; 228.65; 270.65; 270.65; 214.65 ];
     l_b := [ -6.5e-3; 0.0; 1.0e-3; 2.8e-3; 0.0; -2.8e-3; -2.0e-3 ] |}.

(** The local variables [hb], [pb], [tb], [lb] of [update]. *)
Record locals : Type := mkLocals { hb : float; pb : float; tb : float; lb : float }.

(** The first seven assignments of [update]. *)
Definition reset (this : t) : t :=
  let this := set_temp this 0.0 in
  let this := set_press this 0.0 in
  let this := set_dens this 0.0 in
  let this := set_sound this 0.0 in
  let this := set_visc this 0.0 in
  let this := set_kinViscosity this 0.0 in
  set_valid this false.

(** The values the four locals are declared with. *)
Definition preseed (this : t) : locals :=
  {| hb := getf (h_b this) 5;
     pb := getf (p_b this) 6;
     tb := getf (t_b this) 6;
     lb := 0.0 |}.

(** [for ( var i = ...; i < 7; i++ ) { if ( alt < this.h_b[ i ] ) { ...;
    break; } }] started at counter [i] with [n = 7 - i] iterations left.
    Falling out of the loop leaves the object and the locals as they
    were. *)
Fixpoint scan (this : t) (alt : float) (loc : locals) (i n : nat) : t * locals :=
  match n with
  | O => (this, loc)
  | S n' =>
      if alt <? getf (h_b this) i
      then (set_valid this true,
            {| hb := getf (h_b this) (i - 1);
               pb := getf (p_b this) i;
               tb := getf (t_b this) i;
               lb := getf (l_b this) i |})
      else scan this alt loc (S i) n'
  end.

(** The layer resolution of [update]: the [if]/[else] that follows the
    declaration of the locals. *)
Definition resolve (this : t) (alt : float) : t * locals :=
  let loc := preseed this in
  if alt <? getf (h_b this) 0
  then (set_valid this true,
        {| hb := 0.0;
           pb := getf (p_b this) 0;
           tb := t_0 this;
           lb := - (t_0 this - getf (t_b this) 1) / getf (h_b this) 0 |})
  else scan this alt loc 1 6.

Section Math.

(** [Math.exp] and [Math.pow]. *)
Variable Math_exp : float -> float.
Variable Math_pow : float -> float -> float.

(** The right-hand side assigned to [this.press]. *)
Definition pressure (this : t) (loc : locals) (delta_h : float) : float :=
  if PrimFloat.abs (lb loc) <? 1.0e-6
  then pb loc * Math_exp (- (wgs_g this * m this * delta_h) / (r this * tb loc))
  else pb loc * Math_pow (tb loc / temp this)
                       ((wgs_g this * m this) / (r this * lb loc)).

(** The body of [if ( this.valid ) { ... }]. *)
Definition compute (this : t) (loc : locals) (alt : float) : t :=
  let delta_h := alt - hb loc in
  let this := set_temp this (tb loc + lb loc * delta_h) in
  let this := set_press this (pressure this loc delta_h) in
  let this := set_dens this ((press this * m this) / (r this * temp this)) in
  let this := set_sound this (PrimFloat.sqrt ((gamma this * r this * temp this) / m this)) in
  let this := set_visc this
    (beta this * Math_pow (temp this) (3.0 / 2.0) / (temp this + s this)) in
  set_kinViscosity this (visc this / dens this).

(** [update( alt )]. *)
Definition update (this : t) (alt : float) : t :=
  let this := reset this in
  if getf (h_b this) 6 <? alt
  then this
  else
    let '(this, loc) := resolve this alt in
    if valid this then compute this loc alt else this.

End Math.

End Binary64.

(* ================================================================== *)
(** * Class WGS84 *)
(* ================================================================== *)

(** [Math.atan2( y, x )] on real arguments: the angle in (-PI, PI] of
    the point [(x, y)], and [0] at the origin (the value for two
    positive zeros). *)
Definition atan2 (y x : R) : R :=
  if Rlt_dec 0 x then atan (y / x)
  else if Rlt_dec x 0 then
    if Rle_dec 0 y then atan (y / x) + PI else atan (y / x) - PI
  else if Rlt_dec 0 y then PI / 2
  else if Rlt_dec y 0 then - (PI / 2)
  else 0.

Module WGS84.

Record t : Type := mk {
  a : R;
  f : R;
  b : R;
  a2 : R;
  b2 : R;
  e2 : R;
  ep2 : R
}.

(** [new WGS84()]: [a2] and [b2] are computed from the fields assigned
    before them. *)
Definition constructor : t :=
  let a := 6378137.0 in
  let f := 1.0 / 298.257223563 in
  let b := 6356752.3142 in
  {| a := a;
     f := f;
     b := b;
     a2 := a * a;
     b2 := b * b;
     e2 := 6.6943799901400e-3;
     ep2 := 6.7394967422800e-3 |}.

(** [geo2wgs( lat, lon, alt )], returning the array [[ x, y, z ]] as a
    triple. *)
Definition geo2wgs (this : t) (lat lon alt : R) : R * R * R :=
  let sinLat := sin lat in
  let cosLat := cos lat in
  let sinLon := sin lon in
  let cosLon := cos lon in
  let n := a this / sqrt (1.0 - e2 this * sinLat * sinLat) in
  let x := (n + alt) * cosLat * cosLon in
  let y := (n + alt) * cosLat * sinLon in
  let z := (n * (b2 this / a2 this) + alt) * sinLat in
  (x, y, z).

(** [wgs2geo( x, y, z )], returning [[ lat, lon, alt ]] as a triple.
    The local [e2] of the source hides nothing: the field is always
    read as [this.e2]. *)
Definition wgs2geo (this : t) (x y z : R) : R * R * R :=
  let z2 := z * z in
  let r := sqrt (x * x + y * y) in
  let r2 := r * r in
  let e2' := a2 this - b2 this in
  let f := 54.0 * b2 this * z2 in
  let g := r2 + (1.0 - e2 this) * z2 - e2 this * e2' in
  let c := e2 this * e2 this * f * r2 / (g * g * g) in
  let s := Rpower (1.0 + c + sqrt (c * c + 2.0 * c)) (1.0 / 3.0) in
  let p0 := s + 1.0 / s + 1.0 in
  let p := f / (3.0 * p0 * p0 * g * g) in
  let q := sqrt (1.0 + 2.0 * (e2 this * e2 this) * p) in
  let r0 := - (p * e2 this * r) / (1.0 + q)
            + sqrt (0.5 * a2 this * (1.0 + 1.0 / q)
                    - p * (1.0 - e2 this) * z2 / (q + q * q)
                    - 0.5 * p * r2) in
  let uv := r - e2 this * r0 in
  let u := sqrt (uv * uv + z2) in
  let v := sqrt (uv * uv + (1.0 - e2 this) * z2) in
  let z0 := b2 this * z / (a this * v) in
  let alt := u * (1.0 - b2 this / (a this * v)) in
  let lat := atan ((z + ep2 this * z0) / r) in
  let lon := atan2 y x in
  (lat, lon, alt).

End WGS84.

(** ** Angle conversions and the two page handlers *)

Definition deg2rad (ang : R) : R := ang * PI / 180.0.

Definition rad2deg (ang : R) : R := ang * 180.0 / PI.

(** [calcGeo2XYZ()]: the three input fields as numbers; [None] is the
    branch that empties the three outputs. *)
Definition calcGeo2XYZ (inp_lon inp_lat inp_alt : R) : option (R * R * R) :=
  if Rlt_dec inp_lon (-180.0) then None
  else if Rgt_dec inp_lon 180 then None
  else if Rlt_dec inp_lat (-90) then None
  else if Rgt_dec inp_lat 90 then None
  else
    let inp_lon_rad := deg2rad inp_lon in
    let inp_lat_rad := deg2rad inp_lat in
    let wgs := WGS84.constructor in
    Some (WGS84.geo2wgs wgs inp_lat_rad inp_lon_rad inp_alt).

(** [calcXYZ2Geo()]: the triple [(out_lat, out_lon, out_alt)] written to
    the page. *)
Definition calcXYZ2Geo (inp_x inp_y inp_z : R) : R * R * R :=
  let wgs := WGS84.constructor in
  let '(lat, lon, alt) := WGS84.wgs2geo wgs inp_x inp_y inp_z in
  (rad2deg lat, rad2deg lon, alt).

(* ================================================================== *)
(** * Vocabulary of the statements *)
(* ================================================================== *)

(** The locals assigned inside the loop at counter [i]. *)
Definition layer_at (this : Atmosphere.t) (i : nat) : Atmosphere.locals :=
  {| Atmosphere.hb := (Atmosphere.h_b this).[i - 1];
     Atmosphere.pb := (Atmosphere.p_b this).[i];
     Atmosphere.tb := (Atmosphere.t_b this).[i];
     Atmosphere.lb := (Atmosphere.l_b this).[i] |}.

(** The locals assigned in the branch [alt < this.h_b[ 0 ]]. *)
Definition troposphere (this : Atmosphere.t) : Atmosphere.locals :=
  {| Atmosphere.hb := 0.0;
     Atmosphere.pb := (Atmosphere.p_b this).[0];
     Atmosphere.tb := Atmosphere.t_0 this;
     Atmosphere.lb := - (Atmosphere.t_0 this - (Atmosphere.t_b this).[1]) / (Atmosphere.h_b this).[0] |}.

(** Spec wording of the mean molecular weight: the sum of [m_i * f_i]
    over the constituents divided by the sum of the [f_i]. *)
Definition weighted_average (weights values : list R) : R :=
  fold_right Rplus 0 (map (fun vw => fst vw * snd vw) (combine values weights))
  / fold_right Rplus 0 weights.


(* ================================================================== *)
(** * Properties of class Atmosphere *)
(* ================================================================== *)

Section AtmosphereFacts.

Import Atmosphere.

(** ** The loop *)

Lemma scan_hit (this : t) (alt : R) (loc : locals) :
  forall (n i j : nat),
    (i <= j < i + n)%nat ->
    (forall k, (i <= k < j)%nat -> ~ alt < (h_b this).[k]) ->
    alt < (h_b this).[j] ->
    scan this alt loc i n = (set_valid this true, layer_at this j).
Proof.
  induction n as [|n IH]; intros i j Hij Hlow Hj.
  - lia.
  - cbn [scan]. destruct (Rlt_dec alt (h_b this).[i]) as [Hi|Hi].
    + destruct (Nat.eq_dec i j) as [->|Hne]; [reflexivity|].
      exfalso. apply (Hlow i); [lia|exact Hi].
    + destruct (Nat.eq_dec i j) as [->|Hne]; [contradiction|].
      apply IH; [lia| |exact Hj].
      intros k Hk. apply Hlow. lia.
Qed.

Lemma scan_miss (this : t) (alt : R) (loc : locals) :
  forall (n i : nat),
    (forall k, (i <= k < i + n)%nat -> ~ alt < (h_b this).[k]) ->
    scan this alt loc i n = (this, loc).
Proof.
  induction n as [|n IH]; intros i Hall; cbn [scan]; [reflexivity|].
  destruct (Rlt_dec alt (h_b this).[i]) as [Hi|Hi].
  - exfalso. apply (Hall i); [lia|exact Hi].
  - apply IH. intros k Hk. apply Hall. lia.
Qed.

(** Whatever the loop does, it only ever writes [this.valid]. *)
Lemma scan_reset (this : t) (alt : R) (loc : locals) :
  forall (n i : nat), reset (fst (scan this alt loc i n)) = reset this.
Proof.
  induction n as [|n IH]; intros i; cbn [scan]; [reflexivity|].
  destruct (Rlt_dec alt (h_b this).[i]); [reflexivity|apply IH].
Qed.

(** ** The fields [update] resets *)

Lemma set_outputs_twice (this : t) (a b c d e f a' b' c' d' e' f' : R)
    (v v' : bool) :
  set_outputs (set_outputs this a b c d e f v) a' b' c' d' e' f' v'
  = set_outputs this a' b' c' d' e' f' v'.
Proof. reflexivity. Qed.

Lemma set_press_outputs (this : t) (a b c d e f x : R) (v : bool) :
  set_press (set_outputs this a b c d e f v) x
  = set_outputs this a x c d e f v.
Proof. reflexivity. Qed.

Lemma set_dens_outputs (this : t) (a b c d e f x : R) (v : bool) :
  set_dens (set_outputs this a b c d e f v) x
  = set_outputs this a b x d e f v.
Proof. reflexivity. Qed.

Lemma set_sound_outputs (this : t) (a b c d e f x : R) (v : bool) :
  set_sound (set_outputs this a b c d e f v) x
  = set_outputs this a b c x e f v.
Proof. reflexivity. Qed.

Lemma set_visc_outputs (this : t) (a b c d e f x : R) (v : bool) :
  set_visc (set_outputs this a b c d e f v) x
  = set_outputs this a b c d x f v.
Proof. reflexivity. Qed.

Lemma set_kinViscosity_outputs (this : t) (a b c d e f x : R) (v : bool) :
  set_kinViscosity (set_outputs this a b c d e f v) x
  = set_outputs this a b c d e x v.
Proof. reflexivity. Qed.

Lemma set_valid_outputs (this : t) (a b c d e f : R) (v x : bool) :
  set_valid (set_outputs this a b c d e f v) x
  = set_outputs this a b c d e f x.
Proof. reflexivity. Qed.

Lemma reset_eq (this : t) :
  reset this = set_outputs this 0.0 0.0 0.0 0.0 0.0 0.0 false.
Proof.
  unfold reset. cbv zeta.
  change (set_temp this 0.0)
    with (set_outputs this 0.0 (press this) (dens this) (sound this)
            (visc this) (kinViscosity this) (valid this)).
  rewrite set_press_outputs, set_dens_outputs, set_sound_outputs,
    set_visc_outputs, set_kinViscosity_outputs, set_valid_outputs.
  reflexivity.
Qed.

Lemma reset_set_outputs (this : t) (a b c d e f : R) (v : bool) :
  reset (set_outputs this a b c d e f v) = reset this.
Proof. rewrite !reset_eq. apply set_outputs_twice. Qed.

Lemma reset_reset (this : t) : reset (reset this) = reset this.
Proof. rewrite (reset_eq this). apply reset_set_outputs. Qed.

Lemma reset_compute (this : t) (loc : locals) (alt : R) :
  reset (compute this loc alt) = reset this.
Proof.
  unfold compute. cbv zeta.
  unfold set_kinViscosity. rewrite reset_set_outputs.
  unfold set_visc. rewrite reset_set_outputs.
  unfold set_sound. rewrite reset_set_outputs.
  unfold set_dens. rewrite reset_set_outputs.
  unfold set_press. rewrite reset_set_outputs.
  unfold set_temp. apply reset_set_outputs.
Qed.

(** ** The tables of a fresh object *)

Ltac table := unfold get; cbn [nth h_b p_b t_b l_b t_0 constructor].

Lemma h_b_values :
  (h_b constructor).[0] = 11000 /\ (h_b constructor).[1] = 20000 /\
  (h_b constructor).[2] = 32000 /\ (h_b constructor).[3] = 47000 /\
  (h_b constructor).[4] = 51000 /\ (h_b constructor).[5] = 71000 /\
  (h_b constructor).[6] = 84852.
Proof. table. repeat split; lra. Qed.

Lemma h_b_sorted (i j : nat) :
  (i < j < 7)%nat -> (h_b constructor).[i] < (h_b constructor).[j].
Proof.
  intros H.
  do 7 (destruct i as [|i];
        [do 7 (destruct j as [|j]; [try (exfalso; lia); table; try lra|]);
         exfalso; lia|]).
  exfalso; lia.
Qed.

Lemma reset_constructor : reset constructor = constructor.
Proof. reflexivity. Qed.

(** ** Layer resolution on a fresh object *)

Lemma resolve_troposphere (alt : R) :
  alt < 11000 ->
  resolve constructor alt = (set_valid constructor true, troposphere constructor).
Proof.
  intros H. unfold resolve.
  destruct (Rlt_dec alt (h_b constructor).[0]) as [H0|H0]; [reflexivity|].
  exfalso. apply H0. destruct h_b_values as [-> _]. exact H.
Qed.

Lemma resolve_layer (alt : R) (j : nat) :
  (1 <= j < 7)%nat ->
  (h_b constructor).[j - 1] <= alt < (h_b constructor).[j] ->
  resolve constructor alt = (set_valid constructor true, layer_at constructor j).
Proof.
  intros Hj [Hlo Hhi]. unfold resolve.
  destruct (Rlt_dec alt (h_b constructor).[0]) as [H0|H0].
  - exfalso. destruct (Nat.eq_dec j 1) as [->|Hne].
    + cbn [Nat.sub] in Hlo. lra.
    + assert (Hs := h_b_sorted 0 (j - 1) ltac:(lia)). lra.
  - apply scan_hit; [lia| |exact Hhi].
    intros k Hk Hlt.
    destruct (Nat.eq_dec k (j - 1)) as [->|Hne]; [lra|].
    assert (Hs := h_b_sorted k (j - 1) ltac:(lia)). lra.
Qed.

Lemma resolve_top (alt : R) :
  84852 <= alt ->
  resolve constructor alt = (constructor, preseed constructor).
Proof.
  intros H. unfold resolve.
  assert (H6 : (h_b constructor).[6] = 84852) by apply h_b_values.
  destruct (Rlt_dec alt (h_b constructor).[0]) as [H0|H0].
  - exfalso. assert (Hs := h_b_sorted 0 6 ltac:(lia)). lra.
  - apply scan_miss. intros k Hk Hlt.
    destruct (Nat.eq_dec k 6) as [->|Hne]; [lra|].
    assert (Hs := h_b_sorted k 6 ltac:(lia)). lra.
Qed.

(** Every altitude below the top of the table lies in the troposphere
    branch or in exactly one iteration of the loop. *)
Lemma layer_cases (alt : R) :
  alt < 84852 ->
  alt < 11000 \/
  exists j, (1 <= j < 7)%nat /\
            (h_b constructor).[j - 1] <= alt < (h_b constructor).[j].
Proof.
  intros H. destruct h_b_values as (E0 & E1 & E2 & E3 & E4 & E5 & E6).
  destruct (Rlt_dec alt 11000); [left; assumption|right].
  destruct (Rlt_dec alt 20000); [exists 1%nat; cbn [Nat.sub]; split; [lia|lra]|].
  destruct (Rlt_dec alt 32000); [exists 2%nat; cbn [Nat.sub]; split; [lia|lra]|].
  destruct (Rlt_dec alt 47000); [exists 3%nat; cbn [Nat.sub]; split; [lia|lra]|].
  destruct (Rlt_dec alt 51000); [exists 4%nat; cbn [Nat.sub]; split; [lia|lra]|].
  destruct (Rlt_dec alt 71000); [exists 5%nat; cbn [Nat.sub]; split; [lia|lra]|].
  exists 6%nat; cbn [Nat.sub]; split; [lia|lra].
Qed.

(** ** [update] on a fresh object, case by case *)

Lemma update_troposphere (alt : R) :
  alt < 11000 ->
  update constructor alt
  = compute (set_valid constructor true) (troposphere constructor) alt.
Proof.
  intros H. unfold update. rewrite reset_constructor.
  destruct (Rgt_dec alt (h_b constructor).[6]) as [Hgt|_].
  - exfalso. destruct h_b_values as (_ & _ & _ & _ & _ & _ & E6). lra.
  - rewrite (resolve_troposphere alt H). reflexivity.
Qed.

Lemma update_layer (alt : R) (j : nat) :
  (1 <= j < 7)%nat ->
  (h_b constructor).[j - 1] <= alt < (h_b constructor).[j] ->
  update constructor alt
  = compute (set_valid constructor true) (layer_at constructor j) alt.
Proof.
  intros Hj Hin. unfold update. rewrite reset_constructor.
  destruct (Rgt_dec alt (h_b constructor).[6]) as [Hgt|_].
  - exfalso.
    destruct (Nat.eq_dec j 6) as [->|Hne]; [lra|].
    assert (Hs := h_b_sorted j 6 ltac:(lia)). lra.
  - rewrite (resolve_layer alt j Hj Hin). reflexivity.
Qed.

Lemma update_top (alt : R) :
  84852 <= alt -> update constructor alt = constructor.
Proof.
  intros H. unfold update. rewrite reset_constructor.
  destruct (Rgt_dec alt (h_b constructor).[6]) as [Hgt|_]; [reflexivity|].
  rewrite (resolve_top alt H). reflexivity.
Qed.

(** ** Constants of a fresh object *)

Lemma m_bounds : 28.9645 < m constructor < 28.9646.
Proof.
  cbn [m constructor]. unfold mean_molecular_weight, m_i0, f_i0, get.
  cbn [nth].
  set (d := 0.78084 + 0.209476 + 0.00934 + 0.000314 + 0.00001818
            + 0.00000524 + 0.00000114 + 0.000000087 + 0.000002 + 0.0000005).
  assert (Hd : 0 < d) by (unfold d; lra).
  split; apply Rmult_lt_reg_r with (r := d); try exact Hd;
    unfold Rdiv; rewrite Rmult_assoc, Rinv_l by lra; unfold d; lra.
Qed.

Lemma m_pos : 0 < m constructor.
Proof. destruct m_bounds. lra. Qed.

(** ** What [compute] assigns *)

Lemma compute_valid (this : t) (loc : locals) (alt : R) :
  valid (compute this loc alt) = valid this.
Proof. reflexivity. Qed.

Lemma compute_temp (this : t) (loc : locals) (alt : R) :
  temp (compute this loc alt) = tb loc + lb loc * (alt - hb loc).
Proof. reflexivity. Qed.

Lemma compute_press (this : t) (loc : locals) (alt : R) :
  press (compute this loc alt)
  = if Rlt_dec (Rabs (lb loc)) 1.0e-6
    then pb loc * exp (- (wgs_g this * m this * (alt - hb loc))
                       / (r this * tb loc))
    else pb loc * Rpower (tb loc / (tb loc + lb loc * (alt - hb loc)))
                         ((wgs_g this * m this) / (r this * lb loc)).
Proof. reflexivity. Qed.

Lemma compute_dens (this : t) (loc : locals) (alt : R) :
  dens (compute this loc alt)
  = (press (compute this loc alt) * m this)
    / (r this * temp (compute this loc alt)).
Proof. reflexivity. Qed.

(** ** The claims on [update] *)



(** C1.  At [alt = h_b[6] = 84852.0] the guard [alt > h_b[6]] does not
    return, the first branch is not taken and no iteration of the loop
    matches: the locals keep the values they were declared with, but
    [this.valid] is never set, so the block under [if ( this.valid )]
    is skipped.  The result has validity false and all fields zero. *)
Theorem update_at_upper_boundary :
  let alt := 84852.0 in
  let st := update constructor alt in
  ~ alt > (h_b (reset constructor)).[6] /\
  resolve (reset constructor) alt
    = (reset constructor, preseed (reset constructor)) /\
  valid st = false /\
  temp st = 0 /\ press st = 0 /\ dens st = 0 /\
  sound st = 0 /\ visc st = 0 /\ kinViscosity st = 0.
Proof.
  intros alt st. subst alt st.
  rewrite reset_constructor, update_top by lra.
  split; [destruct h_b_values as (_ & _ & _ & _ & _ & _ & ->); lra|].
  split; [apply resolve_top; lra|].
  cbn [valid temp press dens sound visc kinViscosity constructor].
  repeat split; lra.
Qed.

(** C5.  At [alt = 11000] the test [alt < h_b[0]] fails, the first
    iteration of the loop matches with [hb = h_b[0]], [tb = t_b[1]],
    so [delta_h = 0]; the result is valid with temperature 216.65 K. *)
Theorem update_at_tropopause :
  let alt := 11000 in
  let st := update constructor alt in
  ~ alt < (h_b (reset constructor)).[0] /\
  resolve (reset constructor) alt
    = (set_valid (reset constructor) true,
       {| hb := 11000; pb := 22632.0; tb := 216.65; lb := 0.0 |}) /\
  (t_b constructor).[1] = 216.65 /\
  alt - hb (snd (resolve (reset constructor) alt)) = 0 /\
  valid st = true /\
  temp st = 216.65.
Proof.
  intros alt st. subst alt st.
  assert (Hin : (h_b constructor).[1 - 1] <= 11000 < (h_b constructor).[1])
    by (destruct h_b_values as (E0 & E1 & _); cbn [Nat.sub]; lra).
  rewrite reset_constructor, (update_layer 11000 1 ltac:(lia) Hin).
  rewrite (resolve_layer 11000 1 ltac:(lia) Hin).
  split; [destruct h_b_values as (-> & _); lra|].
  split; [unfold layer_at; table; cbn [Nat.sub nth];
          repeat f_equal; lra|].
  split; [table; lra|].
  split; [cbn [snd hb layer_at Nat.sub]; table; lra|].
  split; [reflexivity|].
  rewrite compute_temp. unfold layer_at. cbn [tb lb hb Nat.sub]. table. lra.
Qed.

(** C10.  Every altitude below [h_b[0] = 11000], negative ones
    included, takes the first branch: the result is valid and computed
    from [hb = 0], [pb = p_b[0]], [tb = t_0] and
    [lb = -(t_0 - t_b[1]) / h_b[0]], with the power-law pressure. *)
Theorem update_below_tropopause (alt : R) :
  alt < 11000 ->
  let st := update constructor alt in
  let lb0 := - (t_0 constructor - (t_b constructor).[1]) / (h_b constructor).[0] in
  resolve (reset constructor) alt
    = (set_valid (reset constructor) true,
       {| hb := 0.0; pb := (p_b constructor).[0];
          tb := t_0 constructor; lb := lb0 |}) /\
  st = compute (set_valid (reset constructor) true)
         {| hb := 0.0; pb := (p_b constructor).[0];
            tb := t_0 constructor; lb := lb0 |} alt /\
  valid st = true /\
  temp st = 288.15 + lb0 * (alt - 0) /\
  lb0 = -0.0065 /\
  press st = 101325.0 * Rpower (288.15 / temp st)
                          ((wgs_g constructor * m constructor)
                           / (r constructor * lb0)).
Proof.
  intros H st lb0. subst st.
  rewrite reset_constructor, (update_troposphere alt H).
  rewrite (resolve_troposphere alt H).
  assert (Hlb : lb0 = -0.0065) by (unfold lb0; table; lra).
  split; [reflexivity|]. split; [reflexivity|]. split; [reflexivity|].
  split; [rewrite compute_temp; unfold troposphere; cbn [tb lb hb];
          fold lb0; table; lra|].
  split; [exact Hlb|].
  rewrite compute_press, compute_temp. unfold troposphere. cbn [tb lb hb pb].
  fold lb0.
  destruct (Rlt_dec (Rabs lb0) 1.0e-6) as [Habs|_].
  - exfalso. rewrite Hlb in Habs.
    rewrite Rabs_left in Habs by lra. lra.
  - table. cbn [wgs_g m r set_valid set_outputs]. 
    replace (alt - 0.0) with (alt - 0) by lra. reflexivity.
Qed.

Lemma update_below_tropopause_witness :
  -500 < 11000 /\ valid (update constructor (-500)) = true.
Proof.
  assert (H : -500 < 11000) by lra.
  split; [exact H|].
  exact (proj1 (proj2 (proj2 (update_below_tropopause (-500) H)))).
Defined.

(** C3, as stated, fails at [alt = 80000]: the last iteration of the
    loop matches and assigns [lb = l_b[6]], which is not the value
    [0.0] the local was declared with. *)
Lemma top_layer_gradient_counterexample :
  71000 < 80000 < 84852 /\
  lb (snd (resolve (reset constructor) 80000)) = -2.0e-3 /\
  lb (snd (resolve (reset constructor) 80000)) <> 0.0 /\
  snd (resolve (reset constructor) 80000) <> preseed (reset constructor).
Proof.
  assert (Hin : (h_b constructor).[6 - 1] <= 80000 < (h_b constructor).[6])
    by (destruct h_b_values as (_ & _ & _ & _ & _ & E5 & E6);
        cbn [Nat.sub]; lra).
  rewrite reset_constructor, (resolve_layer 80000 6 ltac:(lia) Hin).
  cbn [snd lb layer_at]. table.
  split; [lra|]. split; [reflexivity|]. split; [intros E; lra|].
  intros E. apply (f_equal lb) in E.
  unfold layer_at, preseed, get in E. cbn [lb nth l_b constructor] in E. lra.
Qed.

(** C3, amended.  Strictly between [h_b[5] = 71000] and
    [h_b[6] = 84852] the locals are those of the loop at [i = 6]:
    [hb = h_b[5]], [pb = p_b[6]], [tb = t_b[6]] and [lb = l_b[6]],
    which is -2.0e-3; the result is valid. *)
Theorem update_top_layer (alt : R) :
  71000 < alt < 84852 ->
  let st := update constructor alt in
  resolve (reset constructor) alt
    = (set_valid (reset constructor) true,
       {| hb := (h_b constructor).[5]; pb := (p_b constructor).[6];
          tb := (t_b constructor).[6]; lb := (l_b constructor).[6] |}) /\
  (l_b constructor).[6] = -2.0e-3 /\
  valid st = true /\
  temp st = 214.65 + -2.0e-3 * (alt - 71000).
Proof.
  intros H st. subst st.
  assert (Hin : (h_b constructor).[6 - 1] <= alt < (h_b constructor).[6])
    by (destruct h_b_values as (_ & _ & _ & _ & _ & E5 & E6);
        cbn [Nat.sub]; lra).
  rewrite reset_constructor, (update_layer alt 6 ltac:(lia) Hin).
  rewrite (resolve_layer alt 6 ltac:(lia) Hin).
  split; [reflexivity|]. split; [table; reflexivity|].
  split; [reflexivity|].
  rewrite compute_temp. unfold layer_at. cbn [tb lb hb Nat.sub]. table. lra.
Qed.

Lemma update_top_layer_witness :
  71000 < 80000 < 84852 /\
  temp (update constructor 80000) = 214.65 + -2.0e-3 * (80000 - 71000).
Proof.
  assert (H : 71000 < 80000 < 84852) by lra.
  split; [exact H|].
  exact (proj2 (proj2 (proj2 (update_top_layer 80000 H)))).
Defined.

(** ** [update] and the fields it does not write *)

Lemma resolve_reset (this : t) (alt : R) :
  reset (fst (resolve this alt)) = reset this.
Proof.
  unfold resolve. destruct (Rlt_dec alt (h_b this).[0]);
    [reflexivity|apply scan_reset].
Qed.

Lemma update_reset (this : t) (alt : R) :
  reset (update this alt) = reset this.
Proof.
  unfold update.
  destruct (Rgt_dec alt (h_b (reset this)).[6]); [apply reset_reset|].
  assert (H := resolve_reset (reset this) alt).
  rewrite reset_reset in H.
  destruct (resolve (reset this) alt) as [this' loc]. cbn [fst] in H.
  destruct (valid this'); [rewrite reset_compute|]; exact H.
Qed.

Lemma update_m (this : t) (alt : R) : m (update this alt) = m this.
Proof.
  change (m (reset (update this alt)) = m (reset this)).
  now rewrite update_reset.
Qed.

(** A valid result is the block under [if ( this.valid )] run on what
    the layer resolution left. *)
Lemma update_valid_compute (this : t) (alt : R) :
  valid (update this alt) = true ->
  update this alt
  = compute (fst (resolve (reset this) alt))
            (snd (resolve (reset this) alt)) alt.
Proof.
  unfold update.
  destruct (Rgt_dec alt (h_b (reset this)).[6]);
    [change (valid (reset this)) with false; discriminate|].
  destruct (resolve (reset this) alt) as [this' loc]. cbn [fst snd].
  destruct (valid this') eqn:Hv; [reflexivity|congruence].
Qed.

(** C7.  In a valid result the pressure is the exponential form when
    [|lb| < 1e-6] and the power-law form otherwise, [lb] being the
    gradient the layer resolution left; in the second case the divisor
    [r * lb] of the exponent is not zero. *)
Theorem pressure_branch_by_gradient (alt : R) :
  let st := update constructor alt in
  let this := fst (resolve (reset constructor) alt) in
  let loc := snd (resolve (reset constructor) alt) in
  valid st = true ->
  st = compute this loc alt /\
  (Rabs (lb loc) < 1.0e-6 ->
   press st = pb loc * exp (- (wgs_g st * m st * (alt - hb loc))
                            / (r st * tb loc))) /\
  (~ Rabs (lb loc) < 1.0e-6 ->
   press st = pb loc * Rpower (tb loc / temp st)
                              ((wgs_g st * m st) / (r st * lb loc)) /\
   lb loc <> 0 /\ r st * lb loc <> 0).
Proof.
  intros st this loc Hv.
  assert (E : st = compute this loc alt)
    by (apply update_valid_compute; exact Hv).
  split; [exact E|].
  assert (Ec : reset st = constructor)
    by (unfold st; rewrite update_reset; reflexivity).
  assert (Eg : wgs_g st = wgs_g this /\ m st = m this /\ r st = r this)
    by (rewrite E; repeat split; reflexivity).
  destruct Eg as (Eg & Em & Er).
  assert (Hr : r st = 8314.32)
    by (change (r (reset st) = 8314.32); rewrite Ec; cbn [r constructor]; lra).
  assert (Et : temp st = tb loc + lb loc * (alt - hb loc))
    by (rewrite E; apply compute_temp).
  split.
  - intros Hlb. rewrite Eg, Em, Er. rewrite E at 1. rewrite compute_press.
    destruct (Rlt_dec (Rabs (lb loc)) 1.0e-6); [reflexivity|contradiction].
  - intros Hlb.
    assert (Hnz : lb loc <> 0)
      by (intros Hz; apply Hlb; rewrite Hz, Rabs_R0; lra).
    split; [|split; [exact Hnz|]].
    + rewrite Eg, Em, Er, Et. rewrite E at 1. rewrite compute_press.
      destruct (Rlt_dec (Rabs (lb loc)) 1.0e-6); [contradiction|reflexivity].
    + rewrite Hr. apply Rmult_integral_contrapositive_currified; [lra|exact Hnz].
Qed.

Lemma pressure_branch_by_gradient_witness :
  valid (update constructor 15000) = true /\
  update constructor 15000
  = compute (fst (resolve (reset constructor) 15000))
            (snd (resolve (reset constructor) 15000)) 15000.
Proof.
  assert (Hin : (h_b constructor).[1 - 1] <= 15000 < (h_b constructor).[1])
    by (destruct h_b_values as (E0 & E1 & _); cbn [Nat.sub]; lra).
  assert (Hv : valid (update constructor 15000) = true)
    by (rewrite (update_layer 15000 1 ltac:(lia) Hin); reflexivity).
  split; [exact Hv|].
  exact (proj1 (pressure_branch_by_gradient 15000 Hv)).
Defined.

(** C8.  The mean molecular weight of a fresh object is the weighted
    average of the ten molecular weights by the ten fractional volumes,
    and no call of [update] changes it. *)
Theorem mean_molecular_weight_fixed :
  List.length (m_i constructor) = 10%nat /\
  List.length (f_i constructor) = 10%nat /\
  m constructor = weighted_average (f_i constructor) (m_i constructor) /\
  (forall (this : t) (alt : R), m (update this alt) = m this) /\
  (forall alts : list R,
      m (fold_left update alts constructor) = m constructor).
Proof.
  split; [reflexivity|]. split; [reflexivity|].
  split.
  - cbn [m m_i f_i constructor].
    unfold mean_molecular_weight, weighted_average, m_i0, f_i0, get.
    cbn [nth combine map fold_right fst snd].
    f_equal; ring.
  - split; [exact update_m|].
    intros alts. generalize constructor as this.
    induction alts as [|alt alts IH]; intros this; cbn [fold_left];
      [reflexivity|].
    rewrite IH. apply update_m.
Qed.

(** C2, as stated, fails at [alt = 25000]: between 20000 and 32000 the
    loop matches at [i = 2] with gradient [l_b[2] = 1.0e-3], and the
    temperature there is 221.65 K. *)
Lemma isothermal_20000_32000_counterexample :
  20000 <= 25000 <= 32000 /\
  lb (snd (resolve (reset constructor) 25000)) = 1.0e-3 /\
  temp (update constructor 25000) = 221.65 /\
  temp (update constructor 25000) <> 216.65.
Proof.
  assert (Hin : (h_b constructor).[2 - 1] <= 25000 < (h_b constructor).[2])
    by (destruct h_b_values as (_ & E1 & E2 & _); cbn [Nat.sub]; lra).
  rewrite reset_constructor, (resolve_layer 25000 2 ltac:(lia) Hin).
  rewrite (update_layer 25000 2 ltac:(lia) Hin), compute_temp.
  unfold layer_at. cbn [snd lb tb hb Nat.sub]. table.
  split; [lra|]. split; [reflexivity|]. split; [lra|]. intros E; lra.
Qed.

(** C2, amended.  The layer with zero gradient at 216.65 K is the one
    from 11000 (included) to 20000 (excluded): there the resolved
    gradient is zero, the temperature is 216.65 K at every altitude and
    the pressure is given by the exponential form.  From 20000
    (included) to 32000 (excluded) the gradient is 1.0e-3: the
    temperature is [216.65 + 1.0e-3 * (alt - 20000)] and the pressure is
    given by the power-law form.  Nothing is stated about two returned
    pressures being different: the program rounds, and
    [binary64_equal_neighbours] below shows two altitudes of the second
    layer with the same pressure. *)
Theorem isothermal_layer_11000_20000 :
  (forall alt : R, 11000 <= alt < 20000 ->
     let st := update constructor alt in
     lb (snd (resolve (reset constructor) alt)) = 0 /\
     valid st = true /\
     temp st = 216.65 /\
     press st = 22632.0 * exp (- (wgs_g constructor * m constructor
                                  * (alt - 11000))
                               / (r constructor * 216.65))) /\
  (forall alt : R, 20000 <= alt < 32000 ->
     let st := update constructor alt in
     lb (snd (resolve (reset constructor) alt)) = 1.0e-3 /\
     valid st = true /\
     temp st = 216.65 + 1.0e-3 * (alt - 20000) /\
     press st = 5474.8 * Rpower (216.65 / temp st)
                           ((wgs_g constructor * m constructor)
                            / (r constructor * 1.0e-3))).
Proof.
  destruct h_b_values as (E0 & E1 & E2 & _).
  assert (L1 : forall alt, 11000 <= alt < 20000 ->
             (h_b constructor).[1 - 1] <= alt < (h_b constructor).[1])
    by (intros; cbn [Nat.sub]; lra).
  assert (L2 : forall alt, 20000 <= alt < 32000 ->
             (h_b constructor).[2 - 1] <= alt < (h_b constructor).[2])
    by (intros; cbn [Nat.sub]; lra).
  split.
  - intros alt H st. subst st.
    rewrite reset_constructor, (resolve_layer alt 1 ltac:(lia) (L1 alt H)).
    rewrite (update_layer alt 1 ltac:(lia) (L1 alt H)).
    rewrite compute_temp, compute_press.
    unfold layer_at. cbn [snd lb tb hb pb Nat.sub]. table.
    split; [lra|]. split; [reflexivity|]. split; [lra|].
    destruct (Rlt_dec (Rabs 0.0) 1.0e-6) as [_|Hn].
    + replace (alt - 11000.0) with (alt - 11000) by lra. reflexivity.
    + exfalso. apply Hn. replace 0.0 with 0 by lra. rewrite Rabs_R0. lra.
  - intros alt H st. subst st.
    rewrite reset_constructor, (resolve_layer alt 2 ltac:(lia) (L2 alt H)).
    rewrite (update_layer alt 2 ltac:(lia) (L2 alt H)).
    rewrite compute_temp, compute_press.
    unfold layer_at. cbn [snd lb tb hb pb Nat.sub]. table.
    split; [reflexivity|]. split; [reflexivity|]. split; [lra|].
    destruct (Rlt_dec (Rabs 1.0e-3) 1.0e-6) as [Hn|_].
    + exfalso. rewrite Rabs_right in Hn by lra. lra.
    + replace (216.65 + 1.0e-3 * (alt - 20000.0))
        with (216.65 + 1.0e-3 * (alt - 20000)) by lra.
      reflexivity.
Qed.

Lemma isothermal_layer_11000_20000_witness :
  (11000 <= 15000 < 20000 /\ temp (update constructor 15000) = 216.65) /\
  (20000 <= 25000 < 32000 /\
   temp (update constructor 25000) = 216.65 + 1.0e-3 * (25000 - 20000)).
Proof.
  assert (H1 : 11000 <= 15000 < 20000) by lra.
  assert (H2 : 20000 <= 25000 < 32000) by lra.
  split.
  - split; [exact H1|].
    exact (proj1 (proj2 (proj2
             (proj1 isothermal_layer_11000_20000 15000 H1)))).
  - split; [exact H2|].
    exact (proj1 (proj2 (proj2
             (proj2 isothermal_layer_11000_20000 25000 H2)))).
Defined.

(** In binary64 the altitude 25000 and the next number above it, both
    in the layer from 20000 to 32000, get the same temperature 221.65
    and therefore the same pressure, whatever [Math.exp] and [Math.pow]
    return: the pressure returned by the program is not strictly
    decreasing. *)
Lemma binary64_equal_neighbours :
  forall (Math_exp : float -> float) (Math_pow : float -> float -> float),
  let a1 := 25000%float in
  let a2 := PrimFloat.next_up 25000%float in
  let st1 := Binary64.update Math_exp Math_pow Binary64.constructor a1 in
  let st2 := Binary64.update Math_exp Math_pow Binary64.constructor a2 in
  (a1 <? a2)%float = true /\
  (20000 <=? a1)%float = true /\ (a2 <? 32000)%float = true /\
  Binary64.valid st1 = true /\ Binary64.valid st2 = true /\
  Binary64.temp st1 = 221.65%float /\
  Binary64.temp st2 = 221.65%float /\
  Binary64.press st2 = Binary64.press st1.
Proof.
  intros Math_exp Math_pow. vm_compute. repeat split.
Qed.

End AtmosphereFacts.

(* ================================================================== *)
(** * Properties of class WGS84 *)
(* ================================================================== *)

Section WGS84Facts.

Import WGS84.

Lemma constants_values :
  a constructor = 6378137 /\ b constructor = 6356752.3142 /\
  a2 constructor = 6378137 * 6378137 /\
  b2 constructor = 6356752.3142 * 6356752.3142 /\
  e2 constructor = 0.00669437999014 /\
  ep2 constructor = 0.00673949674228.
Proof. cbn [a b a2 b2 e2 ep2 constructor]. repeat split; lra. Qed.

(** C9.  At [lat = 0], [lon = 0], [alt = 0] the forward transform
    returns the equatorial radius on the x axis. *)
Theorem geo2wgs_origin :
  geo2wgs constructor 0 0 0 = (6378137.0, 0, 0).
Proof.
  unfold geo2wgs. cbn [a b2 a2 e2 constructor].
  rewrite sin_0, cos_0.
  replace (1.0 - 6.6943799901400e-3 * 0 * 0) with 1 by lra.
  rewrite sqrt_1.
  repeat f_equal; lra.
Qed.

(** ** [Math.atan2] *)

Ltac split_cmp :=
  repeat match goal with
    | |- context [Rlt_dec ?u ?v] => destruct (Rlt_dec u v)
    | |- context [Rle_dec ?u ?v] => destruct (Rle_dec u v)
    | |- context [Rgt_dec ?u ?v] => destruct (Rgt_dec u v)
    end.

Lemma atan2_range (y x : R) : - PI < atan2 y x <= PI.
Proof.
  unfold atan2. assert (Hpi := PI_RGT_0). assert (Hb := atan_bound (y / x)).
  destruct (Rlt_dec 0 x) as [Hx|Hx]; [lra|].
  destruct (Rlt_dec x 0) as [Hx'|Hx'].
  - assert (Hx0 : / x < 0) by (apply Rinv_lt_0_compat; exact Hx').
    destruct (Rle_dec 0 y) as [Hy|Hy].
    + assert (Hq : y / x <= 0) by (unfold Rdiv; nra).
      assert (Ha : atan (y / x) <= 0).
      { destruct Hq as [Hq|Hq].
        - left. rewrite <- atan_0. apply atan_increasing. exact Hq.
        - rewrite Hq, atan_0. lra. }
      lra.
    + assert (Hq : 0 < y / x) by (unfold Rdiv; nra).
      assert (Ha : 0 < atan (y / x))
        by (rewrite <- atan_0; apply atan_increasing; exact Hq).
      lra.
  - destruct (Rlt_dec 0 y); [lra|]. destruct (Rlt_dec y 0); lra.
Qed.

Lemma polar_quotient (k lon : R) :
  0 < k -> cos lon <> 0 -> (k * sin lon) / (k * cos lon) = tan lon.
Proof. intros Hk Hc. unfold tan. field. split; lra. Qed.

Lemma tan_plus_PI (x : R) : cos x <> 0 -> tan (x + PI) = tan x.
Proof. intros Hc. unfold tan. rewrite neg_sin, neg_cos. field. exact Hc. Qed.

(** [Math.atan2] gives back the angle of a point written in polar
    form. *)
Lemma atan2_polar (k lon : R) :
  0 < k -> - PI < lon <= PI -> atan2 (k * sin lon) (k * cos lon) = lon.
Proof.
  intros Hk [Hlo Hhi]. assert (Hpi := PI_RGT_0). unfold atan2.
  destruct (Rlt_dec lon (- (PI / 2))) as [H1|H1].
  - (* third quadrant *)
    assert (Hc : cos (lon + PI) > 0) by (apply cos_gt_0; lra).
    assert (Hs : sin lon < 0) by (apply sin_lt_0_var; lra).
    rewrite neg_cos in Hc.
    destruct (Rlt_dec 0 (k * cos lon)); [nra|].
    destruct (Rlt_dec (k * cos lon) 0); [|nra].
    destruct (Rle_dec 0 (k * sin lon)); [nra|].
    rewrite polar_quotient by lra.
    rewrite <- (tan_plus_PI lon) by lra.
    rewrite atan_tan by lra. lra.
  - destruct (Rlt_dec lon (PI / 2)) as [H2|H2].
    + destruct (Req_dec lon (- (PI / 2))) as [E|E].
      * (* on the negative y axis *)
        subst lon. rewrite cos_neg, sin_neg, cos_PI2, sin_PI2.
        split_cmp; lra.
      * (* right half plane *)
        assert (Hc : 0 < cos lon) by (apply cos_gt_0; lra).
        destruct (Rlt_dec 0 (k * cos lon)); [|nra].
        rewrite polar_quotient by lra.
        apply atan_tan. lra.
    + destruct (Req_dec lon (PI / 2)) as [E|E].
      * (* on the positive y axis *)
        subst lon. rewrite cos_PI2, sin_PI2.
        split_cmp; lra.
      * (* second quadrant, the negative x axis included *)
        assert (Hc : cos lon < 0) by (apply cos_lt_0; lra).
        assert (Hs : 0 <= sin lon) by (apply sin_ge_0; lra).
        destruct (Rlt_dec 0 (k * cos lon)); [nra|].
        destruct (Rlt_dec (k * cos lon) 0); [|nra].
        destruct (Rle_dec 0 (k * sin lon)); [|nra].
        rewrite polar_quotient by lra.
        assert (Hc' : 0 < cos (lon - PI)) by (apply cos_gt_0; lra).
        replace (tan lon) with (tan (lon - PI + PI)) by (f_equal; lra).
        rewrite tan_plus_PI by lra.
        rewrite atan_tan by lra. lra.
Qed.

(** ** The inverse transform on the equatorial plane *)

Lemma Rpower_1_l (y : R) : Rpower 1 y = 1.
Proof. unfold Rpower. rewrite ln_1, Rmult_0_r. apply exp_0. Qed.

(** For [z = 0] every intermediate of [wgs2geo] is explicit: [f], [c]
    and [p] vanish, [s = 1], [q = 1], [r0 = a]. *)
Lemma wgs2geo_equatorial (k x y : R) :
  0 < k - e2 constructor * a constructor ->
  x * x + y * y = k * k ->
  wgs2geo constructor x y 0
  = (0, atan2 y x,
     k - e2 constructor * a constructor - b2 constructor / a constructor).
Proof.
  intros Huv Hr.
  destruct constants_values as (Ea & _ & Ea2 & _ & Ee2 & _).
  assert (Hk : 0 < k) by (rewrite Ea, Ee2 in Huv; lra).
  unfold wgs2geo.
  set (A := a constructor) in *. set (E := e2 constructor) in *.
  set (A2 := a2 constructor) in *. set (B2 := b2 constructor) in *.
  set (EP := ep2 constructor).
  assert (HA : 0 < A) by lra.
  assert (HA2 : A2 = A * A) by (rewrite Ea2, Ea; reflexivity).
  cbv zeta.
  rewrite (sqrt_lem_1 (x * x + y * y) k) by nra.
  replace (0 * 0) with 0 by lra.
  replace (54.0 * B2 * 0) with 0 by lra.
  set (g := k * k + (1.0 - E) * 0 - E * (A2 - B2)).
  replace (E * E * 0 * (k * k) / (g * g * g)) with 0
    by (unfold Rdiv; ring).
  replace (1.0 + 0 + sqrt (0 * 0 + 2.0 * 0)) with 1
    by (replace (0 * 0 + 2.0 * 0) with 0 by lra; rewrite sqrt_0; lra).
  rewrite Rpower_1_l.
  set (p0 := 1 + 1.0 / 1 + 1.0).
  replace (0 / (3.0 * p0 * p0 * g * g)) with 0 by (unfold Rdiv; ring).
  replace (1.0 + 2.0 * (E * E) * 0) with 1 by lra.
  rewrite sqrt_1.
  replace (0.5 * A2 * (1.0 + 1.0 / 1) - 0 * (1.0 - E) * 0 / (1 + 1 * 1)
           - 0.5 * 0 * (k * k)) with (A * A)
    by (rewrite HA2; lra).
  rewrite (sqrt_square A) by lra.
  replace (k - E * (- (0 * E * k) / (1.0 + 1) + A)) with (k - E * A)
    by (unfold Rdiv; ring).
  set (uv := k - E * A) in *.
  replace (uv * uv + (1.0 - E) * 0) with (uv * uv) by ring.
  replace (uv * uv + 0) with (uv * uv) by ring.
  rewrite (sqrt_square uv) by lra.
  replace ((0 + EP * (B2 * 0 / (A * uv))) / k) with 0
    by (unfold Rdiv; ring).
  rewrite atan_0.
  f_equal. replace 1.0 with 1 by lra. field. split; lra.
Qed.

(** ** Forward transform in polar form *)

Lemma radicand_pos (lat : R) :
  0 < 1.0 - e2 constructor * sin lat * sin lat.
Proof.
  destruct constants_values as (_ & _ & _ & _ & -> & _).
  assert (H := SIN_bound lat).
  assert (H2 : sin lat * sin lat <= 1) by nra.
  nra.
Qed.

Lemma prime_vertical_pos (lat : R) :
  0 < a constructor / sqrt (1.0 - e2 constructor * sin lat * sin lat).
Proof.
  apply Rdiv_lt_0_compat.
  - destruct constants_values as (-> & _). lra.
  - apply sqrt_lt_R0, radicand_pos.
Qed.

Lemma wgs2geo_lon (this : t) (x y z : R) :
  snd (fst (wgs2geo this x y z)) = atan2 y x.
Proof. reflexivity. Qed.

Lemma geo2wgs_equator (lon alt : R) :
  geo2wgs constructor 0 lon alt
  = ((a constructor + alt) * cos lon, (a constructor + alt) * sin lon, 0).
Proof.
  unfold geo2wgs. rewrite sin_0, cos_0.
  replace (1.0 - e2 constructor * 0 * 0) with 1 by lra.
  rewrite sqrt_1. unfold Rdiv. rewrite Rinv_1.
  f_equal; [f_equal|]; ring.
Qed.

Lemma polar_norm (k lon : R) :
  k * cos lon * (k * cos lon) + k * sin lon * (k * sin lon) = k * k.
Proof.
  assert (Hsc := sin2_cos2 lon). unfold Rsqr in Hsc.
  replace (k * cos lon * (k * cos lon) + k * sin lon * (k * sin lon))
    with (k * k * (sin lon * sin lon + cos lon * cos lon)) by ring.
  rewrite Hsc. ring.
Qed.

(** The altitude offset of the round trip on the equator. *)
Lemma equator_offset :
  9.0e-5 < a constructor * (1 - e2 constructor)
           - b2 constructor / a constructor < 9.01e-5.
Proof.
  destruct constants_values as (-> & _ & _ & -> & -> & _). lra.
Qed.

(** C6, as stated, fails at [lat = 0], [lon = 0], [alt = 0]: the
    altitude that comes back is [a * (1 - e2) - b2 / a], about 9.0e-5,
    not within 1e-6 of the original. *)
Lemma roundtrip_altitude_counterexample :
  Rabs 0 < 89.9 * PI / 180 /\ - PI <= 0 <= PI /\ 0 <= 0 <= 100000 /\
  let '(x, y, z) := geo2wgs constructor 0 0 0 in
  let '(lat', lon', alt') := wgs2geo constructor x y z in
  ~ Rabs (alt' - 0) <= 1e-6.
Proof.
  assert (Hpi := PI_RGT_0).
  split; [rewrite Rabs_R0; lra|]. split; [lra|]. split; [lra|].
  rewrite geo2wgs_equator.
  assert (Hoff := equator_offset).
  destruct constants_values as (Ea & _ & _ & _ & Ee2 & _).
  rewrite (wgs2geo_equatorial (a constructor + 0)).
  - intros H. rewrite Rabs_right in H; lra.
  - rewrite Ea, Ee2. lra.
  - apply polar_norm.
Qed.

(** C6, amended.  For a latitude strictly between the poles, a
    longitude in (-PI, PI] and a non-negative altitude, the round trip
    gives back the longitude exactly.  On the equator it also gives
    back the latitude exactly, and the altitude plus the constant
    [a * (1 - e2) - b2 / a], which lies between 9.0e-5 and 9.01e-5. *)
Theorem roundtrip_longitude_and_equator (lat lon alt : R) :
  - (PI / 2) < lat < PI / 2 ->
  - PI < lon <= PI ->
  0 <= alt ->
  let '(x, y, z) := geo2wgs constructor lat lon alt in
  let '(lat', lon', alt') := wgs2geo constructor x y z in
  lon' = lon /\
  (lat = 0 ->
   lat' = lat /\
   alt' - alt = a constructor * (1 - e2 constructor)
                - b2 constructor / a constructor /\
   9.0e-5 < alt' - alt < 9.01e-5).
Proof.
  intros Hlat Hlon Halt.
  destruct (geo2wgs constructor lat lon alt) as [[x y] z] eqn:Eg.
  destruct (wgs2geo constructor x y z) as [[lat' lon'] alt'] eqn:Ew.
  split.
  - assert (El : lon' = atan2 y x)
      by (rewrite <- wgs2geo_lon with (this := constructor) (z := z);
          rewrite Ew; reflexivity).
    unfold geo2wgs in Eg. cbv zeta in Eg.
    injection Eg as Ex Ey _.
    set (k := (a constructor / sqrt (1.0 - e2 constructor * sin lat * sin lat)
               + alt) * cos lat) in *.
    assert (Hk : 0 < k).
    { unfold k. apply Rmult_lt_0_compat.
      - assert (Hn := prime_vertical_pos lat). lra.
      - apply cos_gt_0; lra. }
    rewrite El, <- Ex, <- Ey. apply atan2_polar; assumption.
  - intros ->. rewrite geo2wgs_equator in Eg. injection Eg as Ex Ey Ez.
    subst x y z.
    assert (Hoff := equator_offset).
    destruct constants_values as (Ea & _ & _ & Eb2 & Ee2 & _).
    rewrite (wgs2geo_equatorial (a constructor + alt)) in Ew.
    + injection Ew as El _ Eh. subst lat' alt'.
      rewrite Ea, Eb2, Ee2 in Hoff |- *.
      split; [reflexivity|]. split; lra.
    + rewrite Ea, Ee2. lra.
    + apply polar_norm.
Qed.

Lemma roundtrip_longitude_and_equator_witness :
  (- (PI / 2) < 0 < PI / 2 /\ - PI < 0 <= PI /\ 0 <= 1000) /\
  let '(x, y, z) := geo2wgs constructor 0 0 1000 in
  let '(lat', lon', alt') := wgs2geo constructor x y z in
  lon' = 0.
Proof.
  assert (Hpi := PI_RGT_0).
  assert (H1 : - (PI / 2) < 0 < PI / 2) by lra.
  assert (H2 : - PI < 0 <= PI) by lra.
  assert (H3 : 0 <= 1000) by lra.
  split; [repeat split; lra|].
  assert (H := roundtrip_longitude_and_equator 0 0 1000 H1 H2 H3).
  destruct (geo2wgs constructor 0 0 1000) as [[x y] z].
  destruct (wgs2geo constructor x y z) as [[lat' lon'] alt'].
  exact (proj1 H).
Defined.

End WGS84Facts.

(* ================================================================== *)
(** * Further properties of class Atmosphere *)
(* ================================================================== *)

Section AtmosphereProfile.

Import Atmosphere.

Ltac tables := unfold get; cbn [nth h_b p_b t_b l_b t_0 constructor].

(** The seven parameter sets a fresh object can resolve, with plain
    numerals. *)
Lemma troposphere_values :
  troposphere constructor = mkLocals 0 101325 288.15 (-0.0065).
Proof. unfold troposphere. tables. f_equal; lra. Qed.

Lemma layer_values :
  layer_at constructor 1 = mkLocals 11000 22632 216.65 0 /\
  layer_at constructor 2 = mkLocals 20000 5474.8 216.65 0.001 /\
  layer_at constructor 3 = mkLocals 32000 868.01 228.65 0.0028 /\
  layer_at constructor 4 = mkLocals 47000 110.9 270.65 0 /\
  layer_at constructor 5 = mkLocals 51000 66.938 270.65 (-0.0028) /\
  layer_at constructor 6 = mkLocals 71000 3.9564 214.65 (-0.002).
Proof.
  unfold layer_at. cbn [Nat.sub]. tables.
  repeat split; f_equal; lra.
Qed.

(** [update] on a fresh object below the top of the table, layer by
    layer. *)
Lemma update_profile (alt : R) :
  alt < 84852 ->
  let v := set_valid constructor true in
  (alt < 11000 /\
   update constructor alt = compute v (mkLocals 0 101325 288.15 (-0.0065)) alt) \/
  (11000 <= alt < 20000 /\
   update constructor alt = compute v (mkLocals 11000 22632 216.65 0) alt) \/
  (20000 <= alt < 32000 /\
   update constructor alt = compute v (mkLocals 20000 5474.8 216.65 0.001) alt) \/
  (32000 <= alt < 47000 /\
   update constructor alt = compute v (mkLocals 32000 868.01 228.65 0.0028) alt) \/
  (47000 <= alt < 51000 /\
   update constructor alt = compute v (mkLocals 47000 110.9 270.65 0) alt) \/
  (51000 <= alt < 71000 /\
   update constructor alt = compute v (mkLocals 51000 66.938 270.65 (-0.0028)) alt) \/
  (71000 <= alt < 84852 /\
   update constructor alt = compute v (mkLocals 71000 3.9564 214.65 (-0.002)) alt).
Proof.
  intros H v.
  destruct h_b_values as (E0 & E1 & E2 & E3 & E4 & E5 & E6).
  destruct layer_values as (L1 & L2 & L3 & L4 & L5 & L6).
  destruct (Rlt_dec alt 11000) as [C0|C0].
  { left. split; [exact C0|].
    rewrite (update_troposphere alt C0), troposphere_values. reflexivity. }
  right. destruct (Rlt_dec alt 20000) as [C1|C1].
  { left. split; [lra|].
    rewrite (update_layer alt 1), L1; [reflexivity|lia|cbn [Nat.sub]; lra]. }
  right. destruct (Rlt_dec alt 32000) as [C2|C2].
  { left. split; [lra|].
    rewrite (update_layer alt 2), L2; [reflexivity|lia|cbn [Nat.sub]; lra]. }
  right. destruct (Rlt_dec alt 47000) as [C3|C3].
  { left. split; [lra|].
    rewrite (update_layer alt 3), L3; [reflexivity|lia|cbn [Nat.sub]; lra]. }
  right. destruct (Rlt_dec alt 51000) as [C4|C4].
  { left. split; [lra|].
    rewrite (update_layer alt 4), L4; [reflexivity|lia|cbn [Nat.sub]; lra]. }
  right. destruct (Rlt_dec alt 71000) as [C5|C5].
  { left. split; [lra|].
    rewrite (update_layer alt 5), L5; [reflexivity|lia|cbn [Nat.sub]; lra]. }
  right. split; [lra|].
  rewrite (update_layer alt 6), L6; [reflexivity|lia|cbn [Nat.sub]; lra].
Qed.

Ltac profile alt H :=
  let P := fresh "P" in
  let E := fresh "E" in
  destruct (update_profile alt H) as
    [[P E]|[[P E]|[[P E]|[[P E]|[[P E]|[[P E]|[P E]]]]]]].

(** The temperature of a valid result, as a function of the altitude. *)
Lemma temp_profile (alt : R) :
  alt < 84852 ->
  (alt < 11000 /\ temp (update constructor alt) = 288.15 - 0.0065 * alt) \/
  (11000 <= alt < 20000 /\ temp (update constructor alt) = 216.65) \/
  (20000 <= alt < 32000 /\
   temp (update constructor alt) = 216.65 + 0.001 * (alt - 20000)) \/
  (32000 <= alt < 47000 /\
   temp (update constructor alt) = 228.65 + 0.0028 * (alt - 32000)) \/
  (47000 <= alt < 51000 /\ temp (update constructor alt) = 270.65) \/
  (51000 <= alt < 71000 /\
   temp (update constructor alt) = 270.65 - 0.0028 * (alt - 51000)) \/
  (71000 <= alt < 84852 /\
   temp (update constructor alt) = 214.65 - 0.002 * (alt - 71000)).
Proof.
  intros H. profile alt H; rewrite E, compute_temp; cbn [tb lb hb].
  - left. split; [exact P|lra].
  - right; left. split; [exact P|lra].
  - do 2 right; left. split; [exact P|lra].
  - do 3 right; left. split; [exact P|lra].
  - do 4 right; left. split; [exact P|lra].
  - do 5 right; left. split; [exact P|lra].
  - do 6 right. split; [exact P|lra].
Qed.

Lemma temp_lower_bound (alt : R) :
  alt < 84852 -> 186.946 < temp (update constructor alt).
Proof.
  intros H.
  destruct (temp_profile alt H) as
    [[P E]|[[P E]|[[P E]|[[P E]|[[P E]|[[P E]|[P E]]]]]]]; rewrite E; lra.
Qed.

Lemma update_valid_below (alt : R) :
  alt < 84852 -> valid (update constructor alt) = true.
Proof. intros H. profile alt H; rewrite E; reflexivity. Qed.

(** X1.  A fresh object reports a valid result exactly for the
    altitudes strictly below [h_b[6] = 84852]. *)
Theorem update_valid_iff (alt : R) :
  valid (update constructor alt) = true <-> alt < 84852.
Proof.
  split.
  - intros Hv. destruct (Rlt_dec alt 84852) as [H|H]; [exact H|].
    rewrite update_top in Hv by lra. cbn [valid constructor] in Hv.
    discriminate.
  - apply update_valid_below.
Qed.

Lemma update_valid_iff_witness :
  1000 < 84852 /\ valid (update constructor 1000) = true.
Proof.
  assert (H : 1000 < 84852) by lra.
  split; [exact H|exact (proj2 (update_valid_iff 1000) H)].
Defined.

(** ** Calls in sequence *)

Lemma update_of_reset (this : t) (alt : R) :
  update this alt = update (reset this) alt.
Proof. reflexivity. Qed.

(** X2.  A call of [update] does not depend on the calls made before
    it: on any object, the result of a second call is the result the
    second call alone would give, and after any sequence of calls on a
    fresh object the result is that of a fresh object. *)
Theorem update_history_independent :
  (forall (this : t) (a1 a2 : R),
      update (update this a1) a2 = update this a2) /\
  (forall (alts : list R) (alt : R),
      update (fold_left update alts constructor) alt
      = update constructor alt).
Proof.
  assert (Hstep : forall this a1 a2,
             update (update this a1) a2 = update this a2).
  { intros this a1 a2.
    rewrite (update_of_reset (update this a1)), update_reset.
    symmetry. apply update_of_reset. }
  split; [exact Hstep|].
  intros alts alt.
  assert (Hgen : forall this,
             reset this = constructor ->
             reset (fold_left update alts this) = constructor).
  { induction alts as [|a0 alts IH]; intros this Hthis; cbn [fold_left].
    - exact Hthis.
    - apply IH. rewrite update_reset. exact Hthis. }
  rewrite update_of_reset, (Hgen constructor reset_constructor).
  reflexivity.
Qed.

(** X3.  [update] writes the seven result fields only: the constants
    and the four tables of the object are the same after the call. *)
Theorem update_keeps_constants (this : t) (alt : R) :
  let st := update this alt in
  m_i st = m_i this /\ f_i st = f_i this /\ m st = m this /\
  r st = r this /\ s st = s this /\ beta st = beta this /\
  gamma st = gamma this /\ wgs_g st = wgs_g this /\
  t_0 st = t_0 this /\ p_0 st = p_0 this /\ rho_0 st = rho_0 this /\
  h_b st = h_b this /\ p_b st = p_b this /\ t_b st = t_b this /\
  l_b st = l_b this.
Proof.
  intros st. assert (H := update_reset this alt). fold st in H.
  repeat split.
  - exact (f_equal m_i H).
  - exact (f_equal f_i H).
  - exact (f_equal m H).
  - exact (f_equal r H).
  - exact (f_equal s H).
  - exact (f_equal beta H).
  - exact (f_equal gamma H).
  - exact (f_equal wgs_g H).
  - exact (f_equal t_0 H).
  - exact (f_equal p_0 H).
  - exact (f_equal rho_0 H).
  - exact (f_equal h_b H).
  - exact (f_equal p_b H).
  - exact (f_equal t_b H).
  - exact (f_equal l_b H).
Qed.

(** ** The temperature profile *)

(** X4.  From sea level to the top of the table the temperature stays
    between 186.9 K and 288.15 K; below sea level it is at least
    288.15 K.  In particular it is never zero or negative in a valid
    result. *)
Theorem temp_bounds (alt : R) :
  alt < 84852 ->
  let T := temp (update constructor alt) in
  186.9 < T /\ (0 <= alt -> T <= 288.15) /\ (alt <= 0 -> 288.15 <= T).
Proof.
  intros H T. subst T.
  destruct (temp_profile alt H) as
    [[P E]|[[P E]|[[P E]|[[P E]|[[P E]|[[P E]|[P E]]]]]]]; rewrite E;
    repeat split; intros; lra.
Qed.

Lemma temp_bounds_witness :
  30000 < 84852 /\ 186.9 < temp (update constructor 30000).
Proof.
  assert (H : 30000 < 84852) by lra.
  split; [exact H|exact (proj1 (temp_bounds 30000 H))].
Defined.

(** ** Signs and mutual consistency of the results *)

Lemma compute_sound (this : t) (loc : locals) (alt : R) :
  sound (compute this loc alt)
  = sqrt ((gamma this * r this * temp (compute this loc alt)) / m this).
Proof. reflexivity. Qed.

Lemma compute_visc (this : t) (loc : locals) (alt : R) :
  visc (compute this loc alt)
  = beta this * Rpower (temp (compute this loc alt)) (3.0 / 2.0)
    / (temp (compute this loc alt) + s this).
Proof. reflexivity. Qed.

Lemma compute_kinViscosity (this : t) (loc : locals) (alt : R) :
  kinViscosity (compute this loc alt)
  = visc (compute this loc alt) / dens (compute this loc alt).
Proof. reflexivity. Qed.

Lemma compute_press_pos (this : t) (loc : locals) (alt : R) :
  0 < pb loc -> 0 < press (compute this loc alt).
Proof.
  intros Hpb. rewrite compute_press.
  destruct (Rlt_dec (Rabs (lb loc)) 1.0e-6);
    apply Rmult_lt_0_compat; try exact Hpb;
    [apply exp_pos|unfold Rpower; apply exp_pos].
Qed.

(** A valid result of a fresh object comes from [compute] on a base
    pressure that is positive, with the constants of the constructor. *)
Lemma update_from_compute (alt : R) :
  alt < 84852 ->
  exists loc : locals,
    update constructor alt = compute (set_valid constructor true) loc alt /\
    0 < pb loc.
Proof.
  intros H. profile alt H; rewrite E; eexists; (split; [reflexivity|]);
    cbn [pb]; lra.
Qed.

Lemma update_signs (alt : R) :
  alt < 84852 ->
  let st := update constructor alt in
  0 < temp st /\ 0 < press st /\ 0 < dens st /\
  0 < sound st /\ 0 < visc st /\ 0 < kinViscosity st.
Proof.
  intros H st.
  assert (HT : 186.946 < temp st) by (apply temp_lower_bound; exact H).
  destruct (update_from_compute alt H) as (loc & E & Hpb).
  assert (Hm := m_bounds).
  subst st. rewrite E in *.
  set (v := set_valid constructor true) in *.
  assert (Em : m v = m constructor) by reflexivity.
  assert (Er : r v = 8314.32) by (cbn [r v set_valid set_outputs constructor]; lra).
  assert (Eg : gamma v = 1.4) by (cbn [gamma v set_valid set_outputs constructor]; lra).
  assert (Eb : beta v = 0.000001458)
    by (cbn [beta v set_valid set_outputs constructor]; lra).
  assert (Es : s v = 110) by (cbn [s v set_valid set_outputs constructor]; lra).
  assert (HP : 0 < press (compute v loc alt))
    by (apply compute_press_pos; exact Hpb).
  assert (HD : 0 < dens (compute v loc alt)).
  { rewrite compute_dens, Em, Er. apply Rdiv_lt_0_compat; nra. }
  assert (HV : 0 < visc (compute v loc alt)).
  { rewrite compute_visc, Eb, Es. apply Rdiv_lt_0_compat; [|lra].
    apply Rmult_lt_0_compat; [lra|unfold Rpower; apply exp_pos]. }
  repeat split.
  - lra.
  - exact HP.
  - exact HD.
  - rewrite compute_sound, Em, Er, Eg. apply sqrt_lt_R0.
    apply Rdiv_lt_0_compat; nra.
  - exact HV.
  - rewrite compute_kinViscosity. apply Rdiv_lt_0_compat; assumption.
Qed.

(** X5.  For every altitude from 20000 m below sea level up to the top
    of the table, the six numeric fields of the result are strictly
    positive; none of the divisions of [update] (by [r * temp], by [m],
    by [temp + s], by [dens]) is by zero. *)
Theorem update_outputs_positive (alt : R) :
  -20000 <= alt < 84852 ->
  let st := update constructor alt in
  (0 < temp st /\ 0 < press st /\ 0 < dens st /\
   0 < sound st /\ 0 < visc st /\ 0 < kinViscosity st) /\
  r st * temp st <> 0 /\ m st <> 0 /\ temp st + s st <> 0 /\ dens st <> 0.
Proof.
  intros [_ H] st.
  assert (Hs := update_signs alt H). fold st in Hs.
  destruct Hs as (HT & HP & HD & HS & HV & HK).
  assert (Ec : reset st = constructor)
    by (unfold st; rewrite update_reset; reflexivity).
  assert (Er : r st = 8314.32)
    by (change (r (reset st) = 8314.32); rewrite Ec; cbn [r constructor]; lra).
  assert (Es : s st = 110)
    by (change (s (reset st) = 110); rewrite Ec; cbn [s constructor]; lra).
  assert (Em : m st = m constructor)
    by (change (m (reset st) = m constructor); rewrite Ec; reflexivity).
  assert (Hm := m_pos).
  split; [repeat split; assumption|].
  rewrite Er, Es, Em. repeat split; lra.
Qed.

Lemma update_outputs_positive_witness :
  -20000 <= 5000 < 84852 /\ 0 < press (update constructor 5000).
Proof.
  assert (H : -20000 <= 5000 < 84852) by lra.
  split; [exact H|].
  exact (proj1 (proj2 (proj1 (update_outputs_positive 5000 H)))).
Defined.

(** ** The loop on any object *)



(** ** The table at its nodes *)

Lemma compute_at_base (this : t) (loc : locals) :
  0 < tb loc ->
  temp (compute this loc (hb loc)) = tb loc /\
  press (compute this loc (hb loc)) = pb loc.
Proof.
  intros Htb. rewrite compute_temp, compute_press.
  replace (hb loc - hb loc) with 0 by ring.
  rewrite !Rmult_0_r, Rplus_0_r.
  split; [reflexivity|].
  destruct (Rlt_dec (Rabs (lb loc)) 1.0e-6).
  - unfold Rdiv. rewrite Ropp_0, Rmult_0_l, exp_0. ring.
  - replace (tb loc / tb loc) with 1 by (field; lra).
    unfold Rpower. rewrite ln_1, Rmult_0_r, exp_0. ring.
Qed.

(** X7.  The result reproduces the tables at the base of every layer:
    at sea level the temperature is [t_0], the pressure is [p_0] and the
    density is within 1e-5 of [rho_0]; at [alt = h_b[j - 1]], for [j]
    from 1 to 6, the temperature is [t_b[j]] and the pressure is
    [p_b[j]]. *)
Theorem update_at_layer_bases :
  (let st := update constructor 0 in
   temp st = t_0 constructor /\ press st = p_0 constructor /\
   Rabs (dens st - rho_0 constructor) < 1e-5) /\
  (forall j : nat, (1 <= j < 7)%nat ->
     let st := update constructor (h_b constructor).[j - 1] in
     valid st = true /\
     temp st = (t_b constructor).[j] /\
     press st = (p_b constructor).[j]).
Proof.
  split.
  - intros st. subst st.
    rewrite (update_troposphere 0) by lra.
    assert (Hb := compute_at_base (set_valid constructor true)
                    (troposphere constructor)).
    change (hb (troposphere constructor)) with 0.0 in Hb.
    replace 0.0 with 0 in Hb by lra.
    destruct Hb as [HT HP];
      [unfold troposphere; cbn [tb t_0 constructor]; lra|].
    rewrite compute_dens, HT, HP.
    split; [reflexivity|]. split; [reflexivity|].
    assert (Hm := m_bounds).
    change (m (set_valid constructor true)) with (m constructor).
    set (M := m constructor) in *.
    unfold troposphere, get.
    cbn [tb pb r rho_0 t_0 p_b nth set_valid set_outputs constructor].
    assert (Hd : 101325.0 * M / (8.31432e3 * 288.15)
                 = M * (101325 / (8314.32 * 288.15)))
      by lra.
    rewrite Hd.
    assert (Hc1 : 0.0422932 < 101325 / (8314.32 * 288.15)) by lra.
    assert (Hc2 : 101325 / (8314.32 * 288.15) < 0.0422933) by lra.
    set (c := 101325 / (8314.32 * 288.15)) in *.
    apply Rabs_def1; nra.
  - intros j Hj st. subst st.
    assert (Hin : (h_b constructor).[j - 1] <= (h_b constructor).[j - 1]
                  < (h_b constructor).[j]).
    { split; [lra|]. apply h_b_sorted. lia. }
    rewrite (update_layer _ j Hj Hin).
    split; [reflexivity|].
    assert (Htb : 0 < tb (layer_at constructor j)).
    { destruct layer_values as (L1 & L2 & L3 & L4 & L5 & L6).
      destruct j as [|[|[|[|[|[|[|j]]]]]]]; try lia;
        [rewrite L1|rewrite L2|rewrite L3|rewrite L4|rewrite L5|rewrite L6];
        cbn [tb]; lra. }
    exact (compute_at_base (set_valid constructor true)
             (layer_at constructor j) Htb).
Qed.

Lemma update_at_layer_bases_witness :
  (1 <= 3 < 7)%nat /\
  press (update constructor (h_b constructor).[3 - 1])
  = (p_b constructor).[3].
Proof.
  assert (H : (1 <= 3 < 7)%nat) by lia.
  split; [exact H|].
  exact (proj2 (proj2 (proj2 update_at_layer_bases 3%nat H))).
Defined.

End AtmosphereProfile.

(* ================================================================== *)
(** * Temperature scales and [calcAtmos] *)
(* ================================================================== *)

Section AtmospherePage.





(** X9.  An altitude entered in feet gives the page that the same
    altitude entered in metres gives: selector ["2"] with value [h] and
    selector ["1"] with value [0.3048 * h] agree. *)
Theorem calcAtmos_feet (h : R) (ut up ud us uv : string) :
  calcAtmos (mkForm h "2" ut up ud us uv)
  = calcAtmos (mkForm (0.3048 * h) "1" ut up ud us uv).
Proof.
  unfold calcAtmos.
  cbn [inp_alt unit_alt unit_temp unit_press unit_dens unit_sound unit_visc].
  replace (1.0 * (0.3048 * h)) with (0.3048 * h) by lra.
  reflexivity.
Qed.

End AtmospherePage.

(* ================================================================== *)
(** * Further properties of class WGS84 *)
(* ================================================================== *)

Section WGS84Geometry.

Import WGS84.

(** X10.  The forward transform is symmetric about the equatorial plane
    and about the plane of the zero meridian: negating the latitude
    negates [z] only, negating the longitude negates [y] only. *)
Theorem geo2wgs_symmetries (this : t) (lat lon alt : R) :
  let '(x, y, z) := geo2wgs this lat lon alt in
  geo2wgs this (- lat) lon alt = (x, y, - z) /\
  geo2wgs this lat (- lon) alt = (x, - y, z).
Proof.
  unfold geo2wgs. cbv zeta.
  rewrite !sin_neg, !cos_neg.
  replace (1.0 - e2 this * - sin lat * - sin lat)
    with (1.0 - e2 this * sin lat * sin lat) by ring.
  repeat split; f_equal; try f_equal; ring.
Qed.

End WGS84Geometry.
